(** * animeFace: the recognition relay of [server.js]

    A shallow embedding of the single endpoint [POST /api/recognize] of
    [src/server.js] and proofs about its request translation and its
    error mapping.

    [src/server.js] holds two revisions of the server.  The older one
    (lines 1-138) relays a file and the [use_correction] flag to
    dio.jite.me; the newer one (lines 138-340) relays a file or a URL
    and the options [is_multi], [model], [ai_detect] to animetrace.
    They share the multer configuration and the error middleware; the
    route handlers are embedded as [Dio.recognize] and
    [AnimeTrace.recognize]. *)

From Stdlib Require Import ZArith NArith List.
From stdpp Require Import base strings gmap pretty.
Import ListNotations.

Set Warnings "-register-all".
Local Open Scope Z_scope.

(** ** JavaScript values

    The values that flow through the handler: parsed JSON bodies, form
    fields and [undefined].  Numbers are the integer-valued ones (the
    service codes and HTTP statuses are integers; JSON cannot carry
    [NaN]); [JNum n] stands for the JavaScript number [n] when [n] is a
    safe integer, at most 2^53 - 1 in absolute value.  An object is
    the list of its own properties, with distinct names, in the order
    JavaScript enumerates them. *)

Inductive JsVal : Type :=
| JUndefined
| JNull
| JBool (b : bool)
| JNum (n : Z)
| JStr (s : string)
| JArr (items : list JsVal)
| JObj (props : list (string * JsVal)).

(** A computation that either completes with a value or throws. *)
Inductive Completion (A : Type) : Type :=
| Normal (a : A)
| Throw (message : string).
Arguments Normal {A} a.
Arguments Throw {A} message.

#[global] Instance completion_ret : MRet Completion := fun A a => Normal a.

#[global] Instance completion_bind : MBind Completion := fun A B k c =>
  match c with
  | Normal a => k a
  | Throw m => Throw m
  end.

(** [ToBoolean]: what [if (v)], [!v], [v && _] and [v || _] test. *)
Definition truthy (v : JsVal) : bool :=
  match v with
  | JUndefined | JNull => false
  | JBool b => b
  | JNum n => negb (n =? 0)
  | JStr s => negb (String.eqb s "")
  | JArr _ | JObj _ => true
  end.

(** [v !== undefined] *)
Definition defined (v : JsVal) : bool :=
  match v with
  | JUndefined => false
  | _ => true
  end.

(** [a || b] on values already evaluated. *)
Definition js_or (a b : JsVal) : JsVal := if truthy a then a else b.

Fixpoint own_property (name : string) (props : list (string * JsVal)) : JsVal :=
  match props with
  | [] => JUndefined
  | (k, v) :: rest => if String.eqb k name then v else own_property name rest
  end.

(** [v.name] for the property names the handlers read ([code] and
    [message]): it throws on [undefined] and [null], reads an object's
    own property, and is [undefined] on every other value. *)
Definition get (v : JsVal) (name : string) : Completion JsVal :=
  match v with
  | JUndefined => Throw "TypeError: Cannot read properties of undefined"
  | JNull => Throw "TypeError: Cannot read properties of null"
  | JObj props => Normal (own_property name props)
  | JBool _ | JNum _ | JStr _ | JArr _ => Normal JUndefined
  end.

(** [name] is the name of an own property. *)
Definition has_own_property (name : string) (props : list (string * JsVal)) : bool :=
  existsb (fun p => String.eqb (fst p) name) props.

(** [ToString], as a template literal applies it.  An array joins
    the texts of its elements.  An object parsed from JSON holds no
    function: with an own property [toString] it has no callable
    conversion left and [ToString] throws; without one it inherits
    [Object.prototype.toString].  The decimal form of a number is
    the one JavaScript prints for a safe integer. *)
Fixpoint ToString (v : JsVal) : Completion string :=
  match v with
  | JUndefined => Normal "undefined"
  | JNull => Normal "null"
  | JBool true => Normal "true"
  | JBool false => Normal "false"
  | JNum n => Normal (pretty n)
  | JStr s => Normal s
  | JArr items =>
      let element x :=
        match x with
        | JUndefined | JNull => Normal ""
        | _ => ToString x
        end in
      match
        (fix elements (xs : list JsVal) : Completion (list string) :=
           match xs with
           | [] => Normal []
           | x :: rest =>
               match element x with
               | Throw m => Throw m
               | Normal text =>
                   match elements rest with
                   | Throw m => Throw m
                   | Normal texts => Normal (text :: texts)
                   end
               end
           end) items
      with
      | Throw m => Throw m
      | Normal texts => Normal (String.concat "," texts)
      end
  | JObj props =>
      if has_own_property "toString" props
      then Throw "Cannot convert object to primitive value"
      else Normal "[object Object]"
  end.

(** ** Buffers, uploads and requests *)

(** A Node [Buffer]: a length and the byte at each index below it. *)
Record Buffer : Type := mkBuffer {
  byteLength : N;
  byteAt : N -> Byte.byte
}.

(** [Buffer.from(buffer)] copies the bytes. *)
Definition Buffer_from (b : Buffer) : Buffer :=
  mkBuffer (byteLength b) (byteAt b).

(** The inbound request as it reaches the route: the file part of the
    multipart field [file] that multer takes up, if there is one (a
    part with a filename; a request has at most one), and the text
    fields (or the JSON body that [express.json()] parsed). *)
Record FilePart : Type := mkFilePart {
  part_filename : string;
  part_mimetype : string;
  part_content : Buffer
}.

Record Inbound : Type := mkInbound {
  in_file : option FilePart;
  in_body : gmap string JsVal
}.

(** [req.file] as multer's memory storage leaves it. *)
Record File : Type := mkFile {
  originalname : string;
  mimetype : string;
  buffer : Buffer;
  size : N
}.

Record Request : Type := mkRequest {
  file : option File;
  body : gmap string JsVal
}.

(** [req.file] is an object or [undefined]: its truth value. *)
Definition has_file (req : Request) : bool :=
  match file req with
  | Some _ => true
  | None => false
  end.

(** [req.body.name] *)
Definition field (req : Request) (name : string) : JsVal :=
  default JUndefined (body req !! name).

(** ** Multer: [upload.single('file')] *)

Inductive ServerError : Type :=
| MulterError (code : string)
| Error (message : string).

(** [limits.fileSize] *)
Definition fileSize : N := 5 * 1024 * 1024.

(** [fileFilter]: the callback receives an error or [true]. *)
Definition fileFilter (p : FilePart) : ServerError + bool :=
  if String.prefix "image/" (part_mimetype p)
  then inr true
  else inl (Error "只允许上传图片文件").

(** Multer calls the filter when the part's headers arrive, then
    stores the part and aborts with [LIMIT_FILE_SIZE] once more than
    [limits.fileSize] bytes have come; an error goes to [next]. *)
Definition upload_single (raw : Inbound) : ServerError + Request :=
  match in_file raw with
  | None => inr (mkRequest None (in_body raw))
  | Some p =>
      match fileFilter p with
      | inl e => inl e
      | inr false => inr (mkRequest None (in_body raw))
      | inr true =>
          if (fileSize <? byteLength (part_content p))%N
          then inl (MulterError "LIMIT_FILE_SIZE")
          else inr (mkRequest
                      (Some (mkFile (part_filename p) (part_mimetype p)
                                    (part_content p)
                                    (byteLength (part_content p))))
                      (in_body raw))
      end
  end.

(** ** Responses, forms and the outbound call *)

Record Response : Type := mkResponse {
  status : Z;
  payload : JsVal
}.

(** [res.status(s).json(v)] *)
Definition res_status_json (s : Z) (v : JsVal) : Response := mkResponse s v.

(** [res.json(v)]: the status stays at its default. *)
Definition res_json (v : JsVal) : Response := mkResponse 200 v.

(** [JSON.stringify] leaves out a property whose value is [undefined]:
    the property [name] of a response body as the client reads it. *)
Definition sent_property (name : string) (r : Response) : option JsVal :=
  match payload r with
  | JObj props =>
      match own_property name props with
      | JUndefined => None
      | v => Some v
      end
  | _ => None
  end.

(** The error middleware registered with [app.use]. *)
Definition errorHandler (error : ServerError) : Response :=
  match error with
  | MulterError code =>
      if String.eqb code "LIMIT_FILE_SIZE"
      then res_status_json 400 (JObj [("error", JStr "文件大小超过限制（最大5MB）")])
      else res_status_json 500 (JObj [("error", JStr "服务器内部错误")])
  | Error _ => res_status_json 500 (JObj [("error", JStr "服务器内部错误")])
  end.

(** A [FormData] under construction: the parts in the order of the
    [append] calls. *)
Inductive FormPart : Type :=
| FilePartOut (name : string) (content : Buffer) (filename contentType : string)
| ValuePart (name : string) (value : JsVal).

Definition FormData : Type := list FormPart.

(** [form.append(name, value)] of form-data.  A part records the
    arguments of the call.  The library refuses an array (a field the
    request repeats) with an error and fails on an object (a field
    sent with brackets) when it takes the value for a stream; both
    are thrown to the caller, the second with the message of the
    usual case.  Text is taken as it is and a number or a boolean is
    kept for writing.  On [null] the releases of the library differ
    (the older ones throw); the theorems that assert an outbound call
    are stated for text. *)
Definition append (form : FormData) (name : string) (value : JsVal)
    : Completion FormData :=
  match value with
  | JArr _ => Throw "Arrays are not supported."
  | JObj _ => Throw "source.on is not a function"
  | _ => Normal (form ++ [ValuePart name value])
  end.

Definition append_file (form : FormData) (name : string) (content : Buffer)
    (filename contentType : string) : FormData :=
  form ++ [FilePartOut name content filename contentType].

Definition part_name (p : FormPart) : string :=
  match p with
  | FilePartOut name _ _ _ => name
  | ValuePart name _ => name
  end.

(** The parts of a form that carry the field [name]. *)
Definition parts_named (name : string) (form : FormData) : list FormPart :=
  filter (fun p => bool_decide (part_name p = name)) form.

(** [axios.post(url, form, { headers: form.getHeaders(), timeout })]:
    the headers are those of the form. *)
Record AxiosCall : Type := mkCall {
  call_url : string;
  call_form : FormData;
  call_timeout : Z
}.

Record AxiosResponse : Type := mkAxiosResponse {
  response_status : Z;
  response_data : JsVal
}.

(** What the [catch] clause reads of the rejected value. *)
Record AxiosError : Type := mkAxiosError {
  error_response : option AxiosResponse;
  error_request : bool;
  error_message : string
}.

Inductive AxiosResult : Type :=
| Resolved (response : AxiosResponse)
| Rejected (error : AxiosError).

(** What a request does: it answers at once, or it awaits one
    outbound call and goes on with its result, or an exception
    leaves the handler before any call. *)
Inductive Action : Type :=
| Respond (r : Response)
| Await (call : AxiosCall) (k : AxiosResult -> Completion Response)
| Raise (message : string).

(** A run against an upstream: the calls made, and the response sent
    or the exception that left the handler. *)
Definition run (upstream : AxiosCall -> AxiosResult) (a : Action)
    : list AxiosCall * Completion Response :=
  match a with
  | Respond r => ([], Normal r)
  | Await call k => ([call], k (upstream call))
  | Raise m => ([], Throw m)
  end.

(** An [Error] thrown inside the [try] block before the call: the
    [catch] clause finds neither a response nor a request on it. *)
Definition thrown (message : string) : AxiosError :=
  mkAxiosError None false message.

(** The [catch] clause ran before any call was made. *)
Definition caught (outcome : Completion Response) : Action :=
  match outcome with
  | Normal r => Respond r
  | Throw m => Raise m
  end.

(** [switch (v) { case n: ...; break; ... default: ... }] with number
    labels: the first label strictly equal to [v] selects its body. *)
Definition strict_equal_number (v : JsVal) (n : Z) : bool :=
  match v with
  | JNum m => m =? n
  | _ => false
  end.

Fixpoint switch {A : Type} (v : JsVal) (cases : list (Z * A)) (otherwise : A) : A :=
  match cases with
  | [] => otherwise
  | (label, body) :: rest =>
      if strict_equal_number v label then body else switch v rest otherwise
  end.

(** ** The older revision: dio.jite.me *)

Module Dio.

(** The [catch] clause. *)
Definition on_error (error : AxiosError) : Completion Response :=
  match error_response error with
  | Some response =>
      message ← get (response_data response) "message";
      text ← ToString (js_or message (JStr "未知错误"));
      mret (res_status_json (response_status response)
              (JObj [("error", JStr ("识别服务错误: " +:+ text));
                     ("details", response_data response)]))
  | None =>
      if error_request error
      then mret (res_status_json 500
                   (JObj [("error", JStr "无法连接到识别服务，请稍后重试")]))
      else mret (res_status_json 500
                   (JObj [("error",
                           JStr ("请求配置错误: " +:+ error_message error))]))
  end.

(** What follows [await axios.post(...)]. *)
Definition relay (result : AxiosResult) : Completion Response :=
  match result with
  | Resolved response => mret (res_json (response_data response))
  | Rejected error => on_error error
  end.

Definition build_form (f : File) (req : Request) : Completion FormData :=
  let useCorrection := field req "use_correction" in
  let form : FormData := [] in
  let form := append_file form "file" (Buffer_from (buffer f))
                (originalname f) (mimetype f) in
  form ← (if defined useCorrection
          then append form "use_correction" useCorrection
          else mret form);
  mret form.

(** The route handler. *)
Definition recognize (req : Request) : Action :=
  match file req with
  | None => Respond (res_status_json 400 (JObj [("error", JStr "请上传图片文件")]))
  | Some f =>
      match build_form f req with
      | Normal form =>
          Await (mkCall "https://dio.jite.me/api/recognize" form 30000) relay
      | Throw message => caught (on_error (thrown message))
      end
  end.

(** [upload.single('file')], then the handler or the error
    middleware. *)
Definition post_api_recognize (raw : Inbound) : Action :=
  match upload_single raw with
  | inl error => Respond (errorHandler error)
  | inr req => recognize req
  end.

End Dio.

(** ** The newer revision: animetrace *)

Module AnimeTrace.

(** The labels of the [switch] and the message each one assigns. *)
Definition error_codes : list (Z * string) :=
  [ (17701, "图片大小过大，请上传更小的图片");
    (17702, "服务器繁忙，请稍后重试");
    (17703, "请求参数不正确，请检查输入");
    (17704, "API维护中，请稍后重试");
    (17705, "图片格式不支持，请上传JPG、PNG或GIF格式");
    (17706, "识别无法完成，请重试");
    (17707, "服务器内部错误，请重试");
    (17708, "图片中的人物数量超过限制");
    (17722, "图片下载失败，请检查图片URL");
    (17728, "已达到本次使用上限，请稍后再试");
    (17731, "服务利用人数过多，请重新尝试") ].

(** The value [errorMessage] holds when the response is written. *)
Definition error_message_of (data : JsVal) : Completion JsVal :=
  let errorMessage := JStr "识别服务错误" in
  guard ← (if truthy data then get data "code" else mret data);
  if truthy guard then
    code ← get data "code";
    switch code
      (map (fun '(label, text) => (label, mret (JStr text))) error_codes)
      (message ← get data "message"; mret (js_or message errorMessage))
  else
    message ← get data "message"; mret (js_or message errorMessage).

(** The [catch] clause. *)
Definition on_error (error : AxiosError) : Completion Response :=
  match error_response error with
  | Some response =>
      let statusCode := response_status response in
      let data := response_data response in
      errorMessage ← error_message_of data;
      mret (res_status_json statusCode
              (JObj [("error", errorMessage); ("details", data)]))
  | None =>
      if error_request error
      then mret (res_status_json 500
                   (JObj [("error", JStr "无法连接到识别服务，请稍后重试")]))
      else mret (res_status_json 500
                   (JObj [("error",
                           JStr ("请求配置错误: " +:+ error_message error))]))
  end.

(** What follows [await axios.post(...)]. *)
Definition relay (result : AxiosResult) : Completion Response :=
  match result with
  | Resolved response => mret (res_json (response_data response))
  | Rejected error => on_error error
  end.

Definition build_form (req : Request) : Completion FormData :=
  let isMulti := field req "is_multi" in
  let model := field req "model" in
  let aiDetect := field req "ai_detect" in
  let imageUrl := field req "url" in
  let form : FormData := [] in
  form ← match file req with
         | Some f => mret (append_file form "file" (Buffer_from (buffer f))
                             (originalname f) (mimetype f))
         | None => if truthy imageUrl then append form "url" imageUrl
                   else mret form
         end;
  form ← (if defined isMulti then append form "is_multi" isMulti else mret form);
  form ← (if defined model then append form "model" model else mret form);
  form ← (if defined aiDetect then append form "ai_detect" aiDetect else mret form);
  mret form.

(** The route handler. *)
Definition recognize (req : Request) : Action :=
  if negb (has_file req) && negb (truthy (field req "url"))
  then Respond (res_status_json 400
                  (JObj [("error", JStr "请上传图片文件或输入图片URL地址")]))
  else match build_form req with
       | Normal form =>
           Await (mkCall "https://api.animetrace.com/v1/search" form 30000) relay
       | Throw message => caught (on_error (thrown message))
       end.

(** [upload.single('file')], then the handler or the error
    middleware. *)
Definition post_api_recognize (raw : Inbound) : Action :=
  match upload_single raw with
  | inl error => Respond (errorHandler error)
  | inr req => recognize req
  end.

End AnimeTrace.

(** ** The two revisions side by side *)

Inductive Revision : Type := dio | animetrace.

Definition post_api_recognize (rev : Revision) : Inbound -> Action :=
  match rev with
  | dio => Dio.post_api_recognize
  | animetrace => AnimeTrace.post_api_recognize
  end.

(** The option fields a revision reads from [req.body] and forwards. *)
Definition forwarded_options (rev : Revision) : list string :=
  match rev with
  | dio => ["use_correction"]
  | animetrace => ["is_multi"; "model"; "ai_detect"]
  end.

(** The body's [message] is text unless it is absent or falsy: the
    upstream's free-text [message]. *)
Definition message_is_text (data : JsVal) : bool :=
  match get data "message" with
  | Normal (JStr _) => true
  | Normal m => negb (truthy m)
  | Throw _ => true
  end.

(** The body of the failure response the upstream answered the call
    of a run with, if it answered with one: whatever axios made of
    it, an object or not. *)
Definition failure_response_body (upstream : AxiosCall -> AxiosResult)
    (calls : list AxiosCall) : option JsVal :=
  match calls with
  | [call] =>
      match upstream call with
      | Rejected error => response_data <$> error_response error
      | Resolved _ => None
      end
  | _ => None
  end.

(** The run took the success path: the call resolved and its body
    was relayed. *)
Definition relayed_success (upstream : AxiosCall -> AxiosResult)
    (calls : list AxiosCall) (r : Response) : Prop :=
  exists call response,
    calls = [call] /\ upstream call = Resolved response /\
    r = res_json (response_data response).

(** An envelope with an [error] text and no [details]: what the error
    middleware and the missing-image guard answer. *)
Definition plain_error (r : Response) : Prop :=
  (exists text, sent_property "error" r = Some (JStr text)) /\
  sent_property "details" r = None.

(** ** Sample requests and upstreams *)

Definition zeros (n : N) : Buffer := mkBuffer n (fun _ => Byte.x00).

Definition png_part : FilePart := mkFilePart "face.png" "image/png" (zeros 2048).
Definition text_part : FilePart := mkFilePart "notes.txt" "text/plain" (zeros 2048).

Definition url_only : Inbound :=
  mkInbound None {[ "url" := JStr "https://example.org/face.png" ]}.
Definition url_with_legacy_flag : Inbound :=
  mkInbound None (<[ "use_correction" := JStr "true" ]>
                    {[ "url" := JStr "https://example.org/face.png" ]}).
Definition file_and_url : Inbound :=
  mkInbound (Some png_part)
            (<[ "is_multi" := JStr "1" ]>
               {[ "url" := JStr "https://example.org/face.png" ]}).
Definition text_upload : Inbound := mkInbound (Some text_part) ∅.

(** The call the newer revision makes for [url_only]. *)
Definition url_only_call : AxiosCall :=
  mkCall "https://api.animetrace.com/v1/search"
         [ValuePart "url" (JStr "https://example.org/face.png")] 30000.

(** [req] for [file_and_url] and for [url_with_legacy_flag], and the
    calls the newer revision makes for them. *)
Definition file_and_url_request : Request :=
  mkRequest (Some (mkFile "face.png" "image/png" (zeros 2048) 2048))
            (in_body file_and_url).
Definition file_and_url_call : AxiosCall :=
  mkCall "https://api.animetrace.com/v1/search"
         [FilePartOut "file" (zeros 2048) "face.png" "image/png";
          ValuePart "is_multi" (JStr "1")] 30000.
Definition url_with_legacy_flag_request : Request :=
  mkRequest None (in_body url_with_legacy_flag).

(** A success body of the upstream. *)
Definition matches_body : JsVal :=
  JObj [("matches",
         JArr [JObj [("character", JStr "Rem"); ("score", JNum 97)]])].

(** Failure bodies of the upstream. *)
Definition too_large_body : JsVal := JObj [("code", JNum 17701)].
Definition unknown_code_body : JsVal :=
  JObj [("code", JNum 17799); ("message", JStr "quota exceeded")].
Definition unknown_code_empty_message_body : JsVal :=
  JObj [("code", JNum 17799); ("message", JStr "")].
Definition zero_code_body : JsVal :=
  JObj [("code", JNum 0); ("message", JStr "bad request")].
Definition zero_code_empty_message_body : JsVal :=
  JObj [("code", JNum 0); ("message", JStr "")].

(** An upstream that answers every call with the same result. *)
Definition always (result : AxiosResult) : AxiosCall -> AxiosResult :=
  fun _ => result.

Definition rejects (code : Z) (data : JsVal) : AxiosCall -> AxiosResult :=
  always (Rejected (mkAxiosError (Some (mkAxiosResponse code data)) true
                      "Request failed")).

Definition unreachable : AxiosCall -> AxiosResult :=
  always (Rejected (mkAxiosError None true "timeout of 30000ms exceeded")).

(** ** Both revisions: the [catch] clause and the target of the call *)

Definition on_error (rev : Revision) : AxiosError -> Completion Response :=
  match rev with
  | dio => Dio.on_error
  | animetrace => AnimeTrace.on_error
  end.

(** The first argument of [axios.post]. *)
Definition upstream_url (rev : Revision) : string :=
  match rev with
  | dio => "https://dio.jite.me/api/recognize"
  | animetrace => "https://api.animetrace.com/v1/search"
  end.

(** A value that is neither an object nor [null] nor [undefined]:
    what axios hands over for a body that is text, a number, a
    boolean or an array. *)
Definition plain_body (data : JsVal) : bool :=
  match data with
  | JBool _ | JNum _ | JStr _ | JArr _ => true
  | JUndefined | JNull | JObj _ => false
  end.

(** ** The bodies on the wire

    axios reads the text of a JSON body with [JSON.parse], and
    [res.json] writes the value it is given with [JSON.stringify]. *)

Definition quotation_mark : Ascii.ascii := Ascii.ascii_of_N 34.
Definition reverse_solidus : Ascii.ascii := Ascii.ascii_of_N 92.

Definition hex_digit (n : N) : Ascii.ascii :=
  Ascii.ascii_of_N (if (n <? 10)%N then 48 + n else 87 + n).

(** One character of a text as [JSON.stringify] writes it: the
    quotation mark, the reverse solidus and the control characters
    are escaped, every other character is written as it is. *)
Definition escape (c : Ascii.ascii) : string :=
  let n := Ascii.N_of_ascii c in
  if (n =? 34)%N then String reverse_solidus (String quotation_mark "")
  else if (n =? 92)%N then String reverse_solidus (String reverse_solidus "")
  else if (n =? 8)%N then String reverse_solidus "b"
  else if (n =? 9)%N then String reverse_solidus "t"
  else if (n =? 10)%N then String reverse_solidus "n"
  else if (n =? 12)%N then String reverse_solidus "f"
  else if (n =? 13)%N then String reverse_solidus "r"
  else if (n <? 32)%N
       then String reverse_solidus
              ("u00" +:+ String (hex_digit (n / 16))
                           (String (hex_digit (n mod 16)) ""))
  else String c "".

Fixpoint escape_all (s : string) : string :=
  match s with
  | EmptyString => ""
  | String c rest => escape c +:+ escape_all rest
  end.

Definition quote (s : string) : string :=
  String quotation_mark (escape_all s +:+ String quotation_mark "").

(** [JSON.stringify(v)]: nothing for [undefined]; in an array
    [undefined] is written as [null], in an object a property that
    holds it is left out. *)
Fixpoint JSON_stringify (v : JsVal) : option string :=
  match v with
  | JUndefined => None
  | JNull => Some "null"
  | JBool true => Some "true"
  | JBool false => Some "false"
  | JNum n => Some (pretty n)
  | JStr s => Some (quote s)
  | JArr items =>
      Some ("[" +:+
            String.concat ","
              (map (fun x => default "null" (JSON_stringify x)) items) +:+
            "]")
  | JObj props =>
      Some ("{" +:+
            String.concat ","
              ((fix members (ps : list (string * JsVal)) : list string :=
                  match ps with
                  | [] => []
                  | (k, x) :: rest =>
                      match JSON_stringify x with
                      | Some text => (quote k +:+ ":" +:+ text) :: members rest
                      | None => members rest
                      end
                  end) props) +:+
            "}")
  end.

(** The text of the body a response goes out with. *)
Definition body_text (r : Response) : option string :=
  JSON_stringify (payload r).

(** The characters JSON allows between tokens. *)
Fixpoint white_space (s : string) : bool :=
  match s with
  | EmptyString => true
  | String c rest =>
      let n := Ascii.N_of_ascii c in
      ((n =? 32)%N || (n =? 9)%N || (n =? 10)%N || (n =? 13)%N) && white_space rest
  end.

(** [json_text t v]: [JSON.parse] reads the text [t] as the value
    [v].  The rules cover the literals, the safe integers in their
    decimal form, arrays, and white space around a value. *)
Inductive json_text : string -> JsVal -> Prop :=
| text_null : json_text "null" JNull
| text_true : json_text "true" (JBool true)
| text_false : json_text "false" (JBool false)
| text_number (n : Z) :
    Z.abs n <= 2 ^ 53 - 1 -> json_text (pretty n) (JNum n)
| text_array (texts : list string) (items : list JsVal) :
    Forall2 json_text texts items ->
    json_text ("[" +:+ String.concat "," texts +:+ "]") (JArr items)
| text_padded (before text after : string) (v : JsVal) :
    white_space before = true -> white_space after = true ->
    json_text text v ->
    json_text (before +:+ text +:+ after) v.

(** A success body as parsed, and its text as the upstream wrote it. *)
Definition spaced_list_text : string := "[1, 2]".
Definition spaced_list : JsVal := JArr [JNum 1; JNum 2].

(** A field that is absent or holds text: what a multipart text
    field sent once, or not at all, comes to in [req.body]. *)
Definition text_or_undefined (v : JsVal) : bool :=
  match v with
  | JUndefined | JStr _ => true
  | _ => false
  end.

(** A request with a file and a [url] that repeats the field
    [is_multi]: multer collects the two values in an array. *)
Definition file_url_and_repeated_option : Inbound :=
  mkInbound (Some png_part)
            (<[ "is_multi" := JArr [JStr "1"; JStr "2"] ]>
               {[ "url" := JStr "https://example.org/face.png" ]}).

(** A failure body whose [message] is a number. *)
Definition numeric_message_body : JsVal := JObj [("message", JNum 42)].

(** More sample bodies, requests and upstreams. *)
Definition download_failed_body : JsVal :=
  JObj [("code", JNum 17722); ("message", JStr "download failed")].
Definition string_code_body : JsVal :=
  JObj [("code", JStr "17701"); ("message", JStr "too big")].
Definition bad_gateway_page : JsVal := JStr "<html>502 Bad Gateway</html>".
Definition file_and_url_dio_call : AxiosCall :=
  mkCall "https://dio.jite.me/api/recognize"
         [FilePartOut "file" (zeros 2048) "face.png" "image/png"] 30000.
Definition timeout_error : AxiosError :=
  mkAxiosError None true "timeout of 30000ms exceeded".
Definition invalid_url_error : AxiosError :=
  mkAxiosError None false "Invalid URL".

(** * Properties *)

(** ** Running the endpoint *)

Lemma run_respond upstream r : run upstream (Respond r) = ([], Normal r).
Proof. reflexivity. Qed.

Lemma run_await upstream call k :
  run upstream (Await call k) = ([call], k (upstream call)).
Proof. reflexivity. Qed.

Lemma bind_normal {A B} (c : Completion A) (k : A -> Completion B) (y : B) :
  c ≫= k = Normal y -> exists x, c = Normal x /\ k x = Normal y.
Proof. destruct c as [x|m]; [eauto|discriminate]. Qed.

(** ** Building the form *)

Lemma append_normal form name v form' :
  append form name v = Normal form' -> form' = form ++ [ValuePart name v].
Proof. destruct v; simpl; intros H; try discriminate; now injection H. Qed.

(** One [if (v !== undefined) form.append(name, v)]. *)
Lemma append_defined form name v form' :
  (if defined v then append form name v else mret form) = Normal form' ->
  form' = form ++ (if defined v then [ValuePart name v] else []).
Proof.
  destruct (defined v).
  - apply append_normal.
  - intros H. injection H as <-. now rewrite app_nil_r.
Qed.

Lemma dio_build_form_normal f req form :
  Dio.build_form f req = Normal form ->
  form = [FilePartOut "file" (Buffer_from (buffer f)) (originalname f) (mimetype f)]
         ++ (if defined (field req "use_correction")
             then [ValuePart "use_correction" (field req "use_correction")]
             else []).
Proof.
  unfold Dio.build_form. intros H.
  apply bind_normal in H as (form1 & H1 & H). injection H as <-.
  now apply append_defined in H1.
Qed.

Lemma animetrace_build_form_normal req form :
  AnimeTrace.build_form req = Normal form ->
  form =
  (match file req with
   | Some f => [FilePartOut "file" (Buffer_from (buffer f))
                            (originalname f) (mimetype f)]
   | None => if truthy (field req "url")
             then [ValuePart "url" (field req "url")] else []
   end)
  ++ (if defined (field req "is_multi")
      then [ValuePart "is_multi" (field req "is_multi")] else [])
  ++ (if defined (field req "model")
      then [ValuePart "model" (field req "model")] else [])
  ++ (if defined (field req "ai_detect")
      then [ValuePart "ai_detect" (field req "ai_detect")] else []).
Proof.
  unfold AnimeTrace.build_form. intros H.
  apply bind_normal in H as (form0 & H0 & H).
  apply bind_normal in H as (form1 & H1 & H).
  apply bind_normal in H as (form2 & H2 & H).
  apply bind_normal in H as (form3 & H3 & H). injection H as <-.
  apply append_defined in H1, H2, H3. subst form3 form2 form1.
  rewrite <- !app_assoc. f_equal.
  destruct (file req) as [f|].
  - now injection H0 as <-.
  - destruct (truthy (field req "url")).
    + now apply append_normal in H0.
    + now injection H0 as <-.
Qed.

(** Text is always taken. *)
Lemma append_text form name v :
  text_or_undefined v = true ->
  (if defined v then append form name v else mret form) =
  Normal (form ++ (if defined v then [ValuePart name v] else [])).
Proof.
  destruct v; try discriminate; intros _; simpl; [|reflexivity].
  now rewrite app_nil_r.
Qed.

(** ** Requests that reach the upstream *)

(** An error thrown while the form is built is answered by the
    [catch] clause: no call is awaited. *)
Lemma dio_caught_thrown message :
  caught (Dio.on_error (thrown message)) =
  Respond (mkResponse 500 (JObj [("error", JStr ("请求配置错误: " +:+ message))])).
Proof. reflexivity. Qed.

Lemma animetrace_caught_thrown message :
  caught (AnimeTrace.on_error (thrown message)) =
  Respond (mkResponse 500 (JObj [("error", JStr ("请求配置错误: " +:+ message))])).
Proof. reflexivity. Qed.

Lemma dio_await_inv raw call k :
  Dio.post_api_recognize raw = Await call k ->
  exists req f form,
    upload_single raw = inr req /\ file req = Some f /\
    Dio.build_form f req = Normal form /\
    call = mkCall "https://dio.jite.me/api/recognize" form 30000 /\
    k = Dio.relay.
Proof.
  unfold Dio.post_api_recognize, Dio.recognize.
  destruct (upload_single raw) as [e|req]; [discriminate|].
  destruct (file req) as [f|] eqn:Hfile; [|discriminate].
  destruct (Dio.build_form f req) as [form|message] eqn:Hform;
    [|rewrite dio_caught_thrown; discriminate].
  intros H. injection H as <- <-. eauto 10.
Qed.

Lemma animetrace_await_inv raw call k :
  AnimeTrace.post_api_recognize raw = Await call k ->
  exists req form,
    upload_single raw = inr req /\
    negb (has_file req) && negb (truthy (field req "url")) = false /\
    AnimeTrace.build_form req = Normal form /\
    call = mkCall "https://api.animetrace.com/v1/search" form 30000 /\
    k = AnimeTrace.relay.
Proof.
  unfold AnimeTrace.post_api_recognize, AnimeTrace.recognize.
  destruct (upload_single raw) as [e|req]; [discriminate|].
  destruct (negb (has_file req) && negb (truthy (field req "url"))) eqn:Hguard;
    [discriminate|].
  destruct (AnimeTrace.build_form req) as [form|message] eqn:Hform;
    [|rewrite animetrace_caught_thrown; discriminate].
  intros H. injection H as <- <-. eauto 10.
Qed.

(** Every outbound call of either revision goes on with its [relay]. *)
Lemma dio_await raw call k :
  Dio.post_api_recognize raw = Await call k -> k = Dio.relay.
Proof. intros H. now apply dio_await_inv in H as (? & ? & ? & ? & ? & ? & ? & ?). Qed.

Lemma animetrace_await raw call k :
  AnimeTrace.post_api_recognize raw = Await call k -> k = AnimeTrace.relay.
Proof. intros H. now apply animetrace_await_inv in H as (? & ? & ? & ? & ? & ? & ?). Qed.

(** ** Reading properties *)

Lemma get_defined_object data name v :
  get data name = Normal v -> defined v = true ->
  exists props, data = JObj props /\ own_property name props = v.
Proof.
  destruct data; simpl; intros H Hv; try discriminate;
    try (injection H as <-; discriminate).
  injection H as <-. eauto.
Qed.

(** ** The [switch] over the service codes *)

Lemma switch_no_label {A} (n : Z) (cases : list (Z * A)) (otherwise : A) :
  n ∉ cases.*1 -> switch (JNum n) cases otherwise = otherwise.
Proof.
  induction cases as [|[label body] rest IH]; simpl; intros Hn; [reflexivity|].
  destruct (Z.eqb_spec n label) as [->|Hne].
  - exfalso. apply Hn. left.
  - apply IH. intros Hin. apply Hn. now right.
Qed.

Lemma switch_map_labels {A B} (f : A -> B) (cases : list (Z * A)) :
  (map (fun '(label, x) => (label, f x)) cases).*1 = cases.*1.
Proof.
  induction cases as [|[label x] rest IH]; simpl; [reflexivity|].
  f_equal. exact IH.
Qed.

(** The [switch] has eleven labels, no two alike. *)
Lemma error_codes_labels :
  AnimeTrace.error_codes.*1 =
  [17701; 17702; 17703; 17704; 17705; 17706; 17707; 17708; 17722; 17728; 17731].
Proof. reflexivity. Qed.

Lemma error_codes_distinct : NoDup AnimeTrace.error_codes.*1.
Proof. rewrite error_codes_labels. compute_done. Qed.

(** A label selects its own text. *)
Lemma switch_on_label (n : Z) (text : string) (otherwise : Completion JsVal) :
  (n, text) ∈ AnimeTrace.error_codes ->
  switch (JNum n)
    (map (fun '(label, text) => (label, mret (JStr text))) AnimeTrace.error_codes)
    otherwise = Normal (JStr text).
Proof.
  intros Hin. unfold AnimeTrace.error_codes in Hin.
  repeat (apply elem_of_cons in Hin as [Hin|Hin];
          [injection Hin as -> ->; reflexivity|]).
  now apply elem_of_nil in Hin.
Qed.

(** With a truthy code on an object, [errorMessage] is what the
    [switch] assigns. *)
Lemma error_message_of_truthy_code props :
  truthy (own_property "code" props) = true ->
  AnimeTrace.error_message_of (JObj props) =
  switch (own_property "code" props)
    (map (fun '(label, text) => (label, Normal (JStr text))) AnimeTrace.error_codes)
    (Normal (js_or (own_property "message" props) (JStr "识别服务错误"))).
Proof.
  intros Hc. unfold AnimeTrace.error_message_of. simpl.
  unfold mbind, completion_bind, mret, completion_ret. simpl.
  rewrite Hc. reflexivity.
Qed.

(** With a falsy code, [errorMessage] is the message or the default. *)
Lemma error_message_of_falsy_code data code message :
  get data "code" = Normal code -> truthy code = false ->
  get data "message" = Normal message ->
  AnimeTrace.error_message_of data =
  Normal (js_or message (JStr "识别服务错误")).
Proof.
  intros Hc Hf Hm. unfold AnimeTrace.error_message_of.
  destruct (truthy data) eqn:Hd.
  - rewrite Hc. simpl. rewrite Hf, Hm. reflexivity.
  - simpl. rewrite Hd, Hm. reflexivity.
Qed.

(** ** Shared facts about the [catch] clauses *)

Lemma await_relay rev raw call k :
  post_api_recognize rev raw = Await call k ->
  k = match rev with dio => Dio.relay | animetrace => AnimeTrace.relay end.
Proof.
  destruct rev; simpl; [apply dio_await | apply animetrace_await].
Qed.

Lemma run_rejected rev upstream raw call k error :
  post_api_recognize rev raw = Await call k ->
  upstream call = Rejected error ->
  run upstream (post_api_recognize rev raw) = ([call], on_error rev error).
Proof.
  intros Hpost Hup.
  pose proof (await_relay _ _ _ _ Hpost) as ->.
  rewrite Hpost, run_await, Hup. destruct rev; reflexivity.
Qed.

Lemma get_throws data name m :
  get data name = Throw m -> data = JNull \/ data = JUndefined.
Proof. destruct data; simpl; intros H; try discriminate; auto. Qed.

Lemma get_succeeds_together data name v other :
  get data name = Normal v -> exists w, get data other = Normal w.
Proof. destruct data; simpl; intros H; try discriminate; eauto. Qed.

Lemma truthy_is_defined v : truthy v = true -> defined v = true.
Proof. destruct v; simpl; congruence. Qed.

Lemma switch_text_of_table (v : JsVal) (cases : list (Z * string))
    (otherwise : Completion JsVal) :
  let result :=
    switch v (map (fun '(label, text) => (label, mret (JStr text))) cases)
           otherwise in
  result = otherwise \/
  exists label text, (label, text) ∈ cases /\ result = Normal (JStr text).
Proof.
  induction cases as [|[label text] rest IH]; simpl; [now left|].
  destruct (strict_equal_number v label).
  - right. exists label, text. split; [left|reflexivity].
  - destruct IH as [IH | (l & t & Hin & IH)]; [now left|].
    right. exists l, t. split; [now right|exact IH].
Qed.

Lemma table_text_is_truthy (label : Z) (text : string) :
  (label, text) ∈ AnimeTrace.error_codes -> truthy (JStr text) = true.
Proof.
  intros Hin. unfold AnimeTrace.error_codes in Hin.
  repeat (apply elem_of_cons in Hin as [Hin|Hin];
          [injection Hin as -> ->; reflexivity|]).
  now apply elem_of_nil in Hin.
Qed.

Lemma fallback_is_truthy (message : JsVal) :
  truthy (js_or message (JStr "识别服务错误")) = true.
Proof. unfold js_or. destruct (truthy message) eqn:Ht; [exact Ht|reflexivity]. Qed.

Lemma error_message_of_is_truthy data (m : JsVal) :
  AnimeTrace.error_message_of data = Normal m -> truthy m = true.
Proof.
  unfold AnimeTrace.error_message_of.
  destruct (get data "message") as [message|m'] eqn:Hmessage.
  - destruct (get_succeeds_together _ _ _ "code" Hmessage) as [code Hcode].
    rewrite Hcode.
    pose proof (switch_text_of_table code AnimeTrace.error_codes
                  (mret (js_or message (JStr "识别服务错误")))) as Hswitch.
    cbv zeta in Hswitch.
    assert (Normal (js_or message (JStr "识别服务错误")) = Normal m ->
            truthy m = true) as Hfallback.
    { intros H. injection H as <-. apply fallback_is_truthy. }
    destruct (truthy data) eqn:Hdata;
      cbn [mbind completion_bind mret completion_ret];
      [destruct (truthy code)|rewrite Hdata]; try exact Hfallback.
    destruct Hswitch as [Hswitch | (label & text & Hin & Hswitch)];
      rewrite Hswitch; [exact Hfallback|].
    intros H. injection H as <-. exact (table_text_is_truthy _ _ Hin).
  - destruct (get_throws _ _ _ Hmessage) as [-> | ->]; discriminate.
Qed.

(** ** The error mapper *)

(** C1: when the upstream answers with a failure whose body carries
    the numeric code 17701, the endpoint calls the upstream once and
    answers with the upstream's status code and the image-too-large
    text as its [error]. *)
Theorem code_17701_is_image_too_large upstream raw call k error response :
  AnimeTrace.post_api_recognize raw = Await call k ->
  upstream call = Rejected error ->
  error_response error = Some response ->
  get (response_data response) "code" = Normal (JNum 17701) ->
  exists r,
    run upstream (AnimeTrace.post_api_recognize raw) = ([call], Normal r) /\
    status r = response_status response /\
    sent_property "error" r = Some (JStr "图片大小过大，请上传更小的图片").
Proof.
  intros Hpost Hup Hresp Hcode.
  pose proof (animetrace_await _ _ _ Hpost) as ->.
  rewrite Hpost, run_await, Hup. simpl.
  unfold AnimeTrace.on_error. rewrite Hresp.
  destruct (get_defined_object _ _ _ Hcode eq_refl) as [props [Hdata Hown]].
  rewrite Hdata, error_message_of_truthy_code by (now rewrite Hown).
  rewrite Hown. simpl.
  eexists. split; [reflexivity|]. split; reflexivity.
Qed.

Lemma code_17701_is_image_too_large_witness :
  get too_large_body "code" = Normal (JNum 17701) /\
  exists r,
    run (rejects 413 too_large_body) (AnimeTrace.post_api_recognize url_only) =
    ([url_only_call], Normal r) /\
    status r = 413 /\
    sent_property "error" r = Some (JStr "图片大小过大，请上传更小的图片").
Proof.
  split; [reflexivity|].
  apply (code_17701_is_image_too_large
           (rejects 413 too_large_body) url_only url_only_call AnimeTrace.relay
           (mkAxiosError (Some (mkAxiosResponse 413 too_large_body)) true
                         "Request failed")
           (mkAxiosResponse 413 too_large_body));
    reflexivity.
Defined.



(** C4, as amended: when the upstream call resolves, the endpoint
    answers with status 200 and the value that was parsed from the
    upstream's body, as it is, whatever that value holds: the value
    is not reshaped. *)
Theorem success_passes_body_through rev upstream raw call k response :
  post_api_recognize rev raw = Await call k ->
  upstream call = Resolved response ->
  run upstream (post_api_recognize rev raw) =
  ([call], Normal (mkResponse 200 (response_data response))).
Proof.
  intros Hpost Hup.
  assert (k = Dio.relay \/ k = AnimeTrace.relay) as Hk.
  { destruct rev; simpl in Hpost;
      [left; eapply dio_await | right; eapply animetrace_await]; eassumption. }
  rewrite Hpost, run_await, Hup.
  destruct Hk as [-> | ->]; reflexivity.
Qed.

Lemma success_passes_body_through_witness :
  run (always (Resolved (mkAxiosResponse 200 matches_body)))
      (post_api_recognize animetrace url_only) =
  ([url_only_call], Normal (mkResponse 200 matches_body)).
Proof.
  apply (success_passes_body_through animetrace
           (always (Resolved (mkAxiosResponse 200 matches_body))) url_only
           url_only_call AnimeTrace.relay (mkAxiosResponse 200 matches_body));
    reflexivity.
Defined.

(** C4, as stated, fails on the bytes: the body goes out as the
    text [JSON.stringify] writes for the parsed value, which is not
    the text the upstream sent when that holds white space between
    its tokens. *)
Lemma reserialised_body_counterexample :
  json_text spaced_list_text spaced_list /\
  exists r,
    run (always (Resolved (mkAxiosResponse 200 spaced_list)))
        (post_api_recognize animetrace url_only) = ([url_only_call], Normal r) /\
    status r = 200 /\
    body_text r = Some "[1,2]" /\
    body_text r <> Some spaced_list_text.
Proof.
  split.
  - apply (text_array ["1"; " 2"] [JNum 1; JNum 2]).
    repeat constructor.
    + apply (text_number 1). vm_compute. discriminate.
    + apply (text_padded " " "2" "" (JNum 2)); try reflexivity.
      apply (text_number 2). vm_compute. discriminate.
  - eexists. split; [reflexivity|]. split; [reflexivity|].
    split; [reflexivity|]. discriminate.
Qed.

(** The message the [catch] clause settles on when no label of the
    [switch] is taken. *)
Lemma fallback_is_sent (status : Z) (message data : JsVal) :
  sent_property "error"
    (res_status_json status
       (JObj [("error", js_or message (JStr "识别服务错误")); ("details", data)])) =
  Some (if truthy message then message else JStr "识别服务错误").
Proof.
  unfold sent_property, js_or. simpl.
  destruct (truthy message) eqn:Ht; [|reflexivity].
  destruct message; simpl in Ht; try discriminate; reflexivity.
Qed.

(** C2, as amended: when the upstream answers with a failure whose
    body carries a numeric code that is none of the eleven labels, the
    [error] of the response is the body's [message] if that is truthy
    (a non-empty text), and the generic recognition-service-error
    message if the body has no message or a falsy one. *)
Theorem unrecognized_code_falls_back upstream raw call k error response n :
  AnimeTrace.post_api_recognize raw = Await call k ->
  upstream call = Rejected error ->
  error_response error = Some response ->
  get (response_data response) "code" = Normal (JNum n) ->
  n ∉ AnimeTrace.error_codes.*1 ->
  exists r message,
    run upstream (AnimeTrace.post_api_recognize raw) = ([call], Normal r) /\
    status r = response_status response /\
    get (response_data response) "message" = Normal message /\
    sent_property "error" r =
    Some (if truthy message then message else JStr "识别服务错误").
Proof.
  intros Hpost Hup Hresp Hcode Hn.
  pose proof (animetrace_await _ _ _ Hpost) as ->.
  rewrite Hpost, run_await, Hup. simpl.
  unfold AnimeTrace.on_error. rewrite Hresp.
  destruct (get_defined_object _ _ _ Hcode eq_refl) as [props [Hdata Hown]].
  exists (res_status_json (response_status response)
            (JObj [("error", js_or (own_property "message" props) (JStr "识别服务错误"));
                   ("details", response_data response)])),
         (own_property "message" props).
  rewrite fallback_is_sent.
  repeat split; [|now rewrite Hdata].
  destruct (truthy (JNum n)) eqn:Htruthy.
  - rewrite Hdata at 1.
    rewrite error_message_of_truthy_code by (now rewrite Hown).
    rewrite Hown, switch_no_label by (now rewrite switch_map_labels).
    reflexivity.
  - rewrite (error_message_of_falsy_code _ (JNum n) (own_property "message" props));
      [reflexivity|assumption|assumption|now rewrite Hdata].
Qed.

Lemma unrecognized_code_falls_back_witness :
  (17799 ∉ AnimeTrace.error_codes.*1) /\
  get unknown_code_body "code" = Normal (JNum 17799) /\
  exists r message,
    run (rejects 429 unknown_code_body) (AnimeTrace.post_api_recognize url_only) =
    ([url_only_call], Normal r) /\
    status r = 429 /\
    get unknown_code_body "message" = Normal message /\
    sent_property "error" r =
    Some (if truthy message then message else JStr "识别服务错误").
Proof.
  assert (17799 ∉ AnimeTrace.error_codes.*1) as Hn by compute_done.
  split; [exact Hn|]. split; [reflexivity|].
  apply (unrecognized_code_falls_back
           (rejects 429 unknown_code_body) url_only url_only_call AnimeTrace.relay
           (mkAxiosError (Some (mkAxiosResponse 429 unknown_code_body)) true
                         "Request failed")
           (mkAxiosResponse 429 unknown_code_body) 17799);
    try reflexivity.
  exact Hn.
Defined.

(** C2, as stated, fails on a body whose [message] is the empty text:
    the field is present, yet the response carries the generic message
    and not the field's value. *)
Lemma unrecognized_code_empty_message_counterexample :
  (17799 ∉ AnimeTrace.error_codes.*1) /\
  get unknown_code_empty_message_body "code" = Normal (JNum 17799) /\
  get unknown_code_empty_message_body "message" = Normal (JStr "") /\
  defined (JStr "") = true /\
  exists r,
    run (rejects 429 unknown_code_empty_message_body)
        (AnimeTrace.post_api_recognize url_only) = ([url_only_call], Normal r) /\
    sent_property "error" r = Some (JStr "识别服务错误") /\
    sent_property "error" r <> Some (JStr "").
Proof.
  split; [compute_done|]. repeat (split; [reflexivity|]).
  eexists. split; [reflexivity|]. split; [reflexivity|]. discriminate.
Qed.

(** C10, as amended: when the upstream answers with a failure whose
    body carries a falsy code (the number 0 in particular), no label
    of the [switch] is tried: the [error] of the response is the
    body's [message] if that is truthy (a non-empty text), and the
    generic recognition-service-error message if the body has no
    message or a falsy one. *)
Theorem falsy_code_skips_lookup upstream raw call k error response code message :
  AnimeTrace.post_api_recognize raw = Await call k ->
  upstream call = Rejected error ->
  error_response error = Some response ->
  get (response_data response) "code" = Normal code ->
  truthy code = false ->
  get (response_data response) "message" = Normal message ->
  exists r,
    run upstream (AnimeTrace.post_api_recognize raw) = ([call], Normal r) /\
    status r = response_status response /\
    sent_property "error" r =
    Some (if truthy message then message else JStr "识别服务错误").
Proof.
  intros Hpost Hup Hresp Hcode Hfalsy Hmessage.
  pose proof (animetrace_await _ _ _ Hpost) as ->.
  rewrite Hpost, run_await, Hup. simpl.
  unfold AnimeTrace.on_error. rewrite Hresp.
  rewrite (error_message_of_falsy_code _ code message) by assumption.
  eexists. split; [reflexivity|]. split; [reflexivity|].
  apply fallback_is_sent.
Qed.

Lemma falsy_code_skips_lookup_witness :
  get zero_code_body "code" = Normal (JNum 0) /\
  truthy (JNum 0) = false /\
  exists r,
    run (rejects 400 zero_code_body) (AnimeTrace.post_api_recognize url_only) =
    ([url_only_call], Normal r) /\
    status r = 400 /\
    sent_property "error" r = Some (JStr "bad request").
Proof.
  split; [reflexivity|]. split; [reflexivity|].
  apply (falsy_code_skips_lookup
           (rejects 400 zero_code_body) url_only url_only_call AnimeTrace.relay
           (mkAxiosError (Some (mkAxiosResponse 400 zero_code_body)) true
                         "Request failed")
           (mkAxiosResponse 400 zero_code_body) (JNum 0) (JStr "bad request"));
    reflexivity.
Defined.

(** C10, as stated, fails on a body with code 0 whose [message] is the
    empty text: the field is present, yet the response carries the
    generic message and not the field's value. *)
Lemma falsy_code_empty_message_counterexample :
  get zero_code_empty_message_body "code" = Normal (JNum 0) /\
  truthy (JNum 0) = false /\
  get zero_code_empty_message_body "message" = Normal (JStr "") /\
  defined (JStr "") = true /\
  exists r,
    run (rejects 400 zero_code_empty_message_body)
        (AnimeTrace.post_api_recognize url_only) = ([url_only_call], Normal r) /\
    sent_property "error" r = Some (JStr "识别服务错误") /\
    sent_property "error" r <> Some (JStr "").
Proof.
  repeat (split; [reflexivity|]).
  eexists. split; [reflexivity|]. split; [reflexivity|]. discriminate.
Qed.

(** ** The request translator *)

Ltac name_in_list H :=
  repeat (apply elem_of_cons in H as [->|H]); [..|now apply elem_of_nil in H].

(** C5, as amended: for every request that passes intake, the outbound
    form carries each option the revision forwards ([use_correction]
    in the older one; [is_multi], [model] and [ai_detect] in the newer
    one) exactly when its value is defined in the request, once and
    with that value, and apart from these carries only the [file] or
    [url] part: an undefined option is absent, and so is an option of
    the other revision. *)
Theorem options_are_forwarded rev raw req call k :
  upload_single raw = inr req ->
  post_api_recognize rev raw = Await call k ->
  (forall name, name ∈ forwarded_options rev ->
     parts_named name (call_form call) =
     if defined (field req name) then [ValuePart name (field req name)] else []) /\
  (forall p, p ∈ call_form call ->
     part_name p ∈ "file" :: "url" :: forwarded_options rev).
Proof.
  intros Hup Hpost.
  destruct rev; simpl in Hpost.
  - apply dio_await_inv in Hpost as (req' & f & form & Hup' & Hfile & Hform & -> & _).
    rewrite Hup in Hup'. injection Hup' as <-.
    apply dio_build_form_normal in Hform as ->. simpl call_form.
    set (correction := field req "use_correction").
    split.
    + intros name Hin. name_in_list Hin. fold correction.
      destruct (defined correction); reflexivity.
    + intros p Hp. destruct (defined correction); simpl in Hp;
        name_in_list Hp; compute_done.
  - apply animetrace_await_inv in Hpost as (req' & form & Hup' & _ & Hform & -> & _).
    rewrite Hup in Hup'. injection Hup' as <-.
    apply animetrace_build_form_normal in Hform as ->. simpl call_form.
    set (multi := field req "is_multi").
    set (model := field req "model").
    set (detect := field req "ai_detect").
    set (url := field req "url").
    split.
    + intros name Hin. name_in_list Hin;
        fold multi model detect;
        destruct (file req), (truthy url),
          (defined multi), (defined model), (defined detect); reflexivity.
    + intros p Hp.
      destruct (file req), (truthy url),
        (defined multi), (defined model), (defined detect); simpl in Hp;
        name_in_list Hp; compute_done.
Qed.

Lemma options_are_forwarded_witness :
  upload_single file_and_url = inr file_and_url_request /\
  post_api_recognize animetrace file_and_url =
  Await file_and_url_call AnimeTrace.relay /\
  (forall name, name ∈ forwarded_options animetrace ->
     parts_named name (call_form file_and_url_call) =
     if defined (field file_and_url_request name)
     then [ValuePart name (field file_and_url_request name)] else []) /\
  (forall p, p ∈ call_form file_and_url_call ->
     part_name p ∈ "file" :: "url" :: forwarded_options animetrace).
Proof.
  split; [reflexivity|]. split; [reflexivity|].
  apply (options_are_forwarded animetrace file_and_url file_and_url_request
           file_and_url_call AnimeTrace.relay); reflexivity.
Defined.

(** C5, as stated, fails in the newer revision on a request that
    defines the legacy [use_correction]: the request passes intake and
    the option is defined, yet the outbound form has no such part. *)
Lemma legacy_flag_not_forwarded_counterexample :
  upload_single url_with_legacy_flag = inr url_with_legacy_flag_request /\
  defined (field url_with_legacy_flag_request "use_correction") = true /\
  AnimeTrace.post_api_recognize url_with_legacy_flag =
  Await url_only_call AnimeTrace.relay /\
  parts_named "use_correction" (call_form url_only_call) = [].
Proof. repeat split. Qed.

(** C9, as amended: a request with a file that passes intake, whose
    forwarded options are each absent or text, is not rejected,
    whatever else it carries, a [url] included: the outbound form has
    one [file] part, with the file's bytes, original filename and
    declared content type, and no [url] part. *)
Theorem file_takes_precedence rev raw req f :
  upload_single raw = inr req ->
  file req = Some f ->
  (forall name, name ∈ forwarded_options rev ->
                text_or_undefined (field req name) = true) ->
  exists call k,
    post_api_recognize rev raw = Await call k /\
    parts_named "file" (call_form call) =
    [FilePartOut "file" (Buffer_from (buffer f)) (originalname f) (mimetype f)] /\
    parts_named "url" (call_form call) = [].
Proof.
  intros Hup Hfile Htext.
  destruct rev; simpl;
    unfold Dio.post_api_recognize, AnimeTrace.post_api_recognize;
    rewrite Hup.
  - unfold Dio.recognize, Dio.build_form. rewrite Hfile.
    rewrite append_text by (apply Htext; compute_done). simpl.
    eexists _, _. split; [reflexivity|]. simpl call_form.
    destruct (defined _); split; reflexivity.
  - unfold AnimeTrace.recognize, AnimeTrace.build_form, has_file.
    rewrite Hfile. simpl.
    rewrite (append_text _ "is_multi") by (apply Htext; compute_done). simpl.
    rewrite (append_text _ "model") by (apply Htext; compute_done). simpl.
    rewrite (append_text _ "ai_detect") by (apply Htext; compute_done). simpl.
    eexists _, _. split; [reflexivity|]. simpl call_form.
    destruct (defined (field req "is_multi")), (defined (field req "model")),
      (defined (field req "ai_detect")); split; reflexivity.
Qed.

Lemma file_takes_precedence_witness :
  upload_single file_and_url = inr file_and_url_request /\
  is_Some (in_body file_and_url !! "url") /\
  exists call k,
    post_api_recognize animetrace file_and_url = Await call k /\
    parts_named "file" (call_form call) =
    [FilePartOut "file" (zeros 2048) "face.png" "image/png"] /\
    parts_named "url" (call_form call) = [].
Proof.
  split; [reflexivity|]. split; [eexists; reflexivity|].
  apply (file_takes_precedence animetrace file_and_url file_and_url_request
           (mkFile "face.png" "image/png" (zeros 2048) 2048));
    [reflexivity|reflexivity|].
  intros name Hin. name_in_list Hin; reflexivity.
Defined.

(** C9, as stated, fails on a request with a file and a [url] that
    repeats an option field: the file passes intake, but the form
    cannot be built, so the request is answered 500 and no outbound
    form is sent. *)
Lemma repeated_option_counterexample :
  in_file file_url_and_repeated_option = Some png_part /\
  is_Some (in_body file_url_and_repeated_option !! "url") /\
  (exists r,
     run unreachable (post_api_recognize animetrace file_url_and_repeated_option) =
     ([], Normal r) /\ status r = 500) /\
  ~ (exists call k,
       post_api_recognize animetrace file_url_and_repeated_option = Await call k).
Proof.
  split; [reflexivity|]. split; [eexists; reflexivity|]. split.
  - eexists. split; reflexivity.
  - intros (call & k & H). discriminate H.
Qed.

(** ** Upload intake *)

(** A file the filter refuses stops at the error middleware: no
    outbound call, and the middleware's catch-all answer. *)
Lemma refused_upload_is_a_server_error rev upstream raw p :
  in_file raw = Some p ->
  String.prefix "image/" (part_mimetype p) = false ->
  run upstream (post_api_recognize rev raw) =
  ([], Normal (mkResponse 500 (JObj [("error", JStr "服务器内部错误")]))).
Proof.
  intros Hfile Himage.
  destruct rev; simpl;
    unfold Dio.post_api_recognize, AnimeTrace.post_api_recognize,
      upload_single, fileFilter;
    rewrite Hfile, Himage; reflexivity.
Qed.

(** C6: the endpoint on an upload declared as [text/plain].  The
    filter refuses it and no outbound call is made, but the answer is
    the middleware's 500 with the internal-error text, in both
    revisions, and not a 400. *)
Theorem text_upload_is_answered_with_500 :
  String.prefix "image/" (part_mimetype text_part) = false /\
  fileFilter text_part = inl (Error "只允许上传图片文件") /\
  forall rev,
    run unreachable (post_api_recognize rev text_upload) =
    ([], Normal (mkResponse 500 (JObj [("error", JStr "服务器内部错误")]))).
Proof.
  split; [reflexivity|]. split; [reflexivity|].
  intros rev. now apply (refused_upload_is_a_server_error rev unreachable text_upload text_part).
Qed.




(** ** The error envelope *)

Lemma switch_text_or_default (v : JsVal) (cases : list (Z * string))
    (otherwise : Completion JsVal) :
  let result :=
    switch v (map (fun '(label, text) => (label, mret (JStr text))) cases)
           otherwise in
  result = otherwise \/ exists text, result = Normal (JStr text).
Proof.
  induction cases as [|[label text] rest IH]; simpl; [now left|].
  destruct (strict_equal_number v label); [right; eauto|exact IH].
Qed.

Lemma fallback_is_text data (m : JsVal) :
  message_is_text data = true ->
  (message ← get data "message"; mret (js_or message (JStr "识别服务错误"))) = Normal m ->
  exists text, m = JStr text.
Proof.
  unfold message_is_text, js_or.
  destruct (get data "message") as [message|]; simpl; [|discriminate].
  intros Htext Hm. injection Hm as <-.
  destruct message as [| |b|n|s|items|props]; simpl in *;
    try discriminate; eauto.
  - destruct b; [discriminate|eauto].
  - destruct (negb (n =? 0)); [discriminate|eauto].
  - destruct (negb (String.eqb s "")); eauto.
Qed.

Lemma error_message_of_is_text data (m : JsVal) :
  message_is_text data = true ->
  AnimeTrace.error_message_of data = Normal m ->
  exists text, m = JStr text.
Proof.
  intros Htext. unfold AnimeTrace.error_message_of.
  destruct (if truthy data then get data "code" else mret data) as [guard|];
    [|discriminate].
  change (Normal guard ≫= ?k) with (k guard). cbv beta.
  destruct (truthy guard); [|now apply fallback_is_text].
  destruct (get data "code") as [code|]; [|discriminate].
  change (Normal code ≫= ?k) with (k code). cbv beta.
  pose proof (switch_text_or_default code AnimeTrace.error_codes
                (message ← get data "message";
                 mret (js_or message (JStr "识别服务错误")))) as Hswitch.
  cbv zeta in Hswitch.
  destruct Hswitch as [-> | [text ->]].
  - now apply fallback_is_text.
  - intros Hm. injection Hm as <-. eauto.
Qed.

Lemma details_are_sent (s : Z) (e message data : JsVal) (name : string) :
  get data name = Normal message ->
  sent_property "details"
    (res_status_json s (JObj [("error", e); ("details", data)])) = Some data.
Proof. destruct data; simpl; intros H; try discriminate; reflexivity. Qed.

Lemma errorHandler_plain_error e : plain_error (errorHandler e).
Proof.
  destruct e as [code|message]; simpl; [destruct (String.eqb code _)|];
    (split; [eexists|]; reflexivity).
Qed.

(** What the endpoint answers without awaiting a call: an [error]
    that is a text and not empty, and no [details]. *)
Lemma respond_is_plain rev raw r :
  post_api_recognize rev raw = Respond r ->
  exists text,
    sent_property "error" r = Some (JStr text) /\
    truthy (JStr text) = true /\
    sent_property "details" r = None.
Proof.
  destruct rev; simpl;
    unfold Dio.post_api_recognize, AnimeTrace.post_api_recognize;
    destruct (upload_single raw) as [e|req].
  1,3: intros H; injection H as <-;
       destruct e as [code|message]; simpl;
       [destruct (String.eqb code "LIMIT_FILE_SIZE")|];
       eexists; repeat split.
  - unfold Dio.recognize. destruct (file req) as [f|].
    + destruct (Dio.build_form f req) as [form|message]; [discriminate|].
      rewrite dio_caught_thrown. intros H. injection H as <-.
      eexists; repeat split.
    + intros H. injection H as <-. eexists; repeat split.
  - unfold AnimeTrace.recognize.
    destruct (negb (has_file req) && negb (truthy (field req "url"))).
    + intros H. injection H as <-. eexists; repeat split.
    + destruct (AnimeTrace.build_form req) as [form|message]; [discriminate|].
      rewrite animetrace_caught_thrown. intros H. injection H as <-.
      eexists; repeat split.
Qed.

(** No exception leaves the handler before the call. *)
Lemma never_raises rev raw m : post_api_recognize rev raw <> Raise m.
Proof.
  destruct rev; simpl;
    unfold Dio.post_api_recognize, AnimeTrace.post_api_recognize;
    destruct (upload_single raw) as [e|req]; try discriminate.
  - unfold Dio.recognize. destruct (file req) as [f|]; [|discriminate].
    destruct (Dio.build_form f req); [discriminate|].
    rewrite dio_caught_thrown. discriminate.
  - unfold AnimeTrace.recognize.
    destruct (negb (has_file req) && negb (truthy (field req "url")));
      [discriminate|].
    destruct (AnimeTrace.build_form req); [discriminate|].
    rewrite animetrace_caught_thrown. discriminate.
Qed.

(** What the [catch] clause answers to a failure response. *)
Lemma on_error_response_inv rev error response r :
  error_response error = Some response ->
  on_error rev error = Normal r ->
  exists e,
    r = mkResponse (response_status response)
          (JObj [("error", e); ("details", response_data response)]) /\
    truthy e = true /\
    sent_property "details" r = Some (response_data response) /\
    ((rev = animetrace -> message_is_text (response_data response) = true) ->
     exists text, e = JStr text).
Proof.
  intros Hresp Hr.
  destruct rev; simpl in Hr; unfold Dio.on_error, AnimeTrace.on_error in Hr;
    rewrite Hresp in Hr.
  - destruct (get (response_data response) "message") as [message|] eqn:Hm;
      [|discriminate].
    simpl in Hr.
    destruct (ToString (js_or message (JStr "未知错误"))) as [text|];
      [|discriminate].
    injection Hr as <-. eexists. split; [reflexivity|].
    split; [reflexivity|]. split; [exact (details_are_sent _ _ _ _ _ Hm)|eauto].
  - destruct (AnimeTrace.error_message_of (response_data response))
      as [m|] eqn:Hm; [|discriminate].
    injection Hr as <-. exists m. split; [reflexivity|].
    split; [exact (error_message_of_is_truthy _ _ Hm)|].
    split.
    + assert (exists v, get (response_data response) "message" = Normal v)
        as [v Hv].
      { revert Hm. unfold AnimeTrace.error_message_of.
        destruct (response_data response); simpl; try discriminate; eauto. }
      exact (details_are_sent _ _ _ _ _ Hv).
    + intros Htext. exact (error_message_of_is_text _ _ (Htext eq_refl) Hm).
Qed.

(** What the [catch] clause answers when there is no response. *)
Lemma on_error_no_response_inv rev error r :
  error_response error = None ->
  on_error rev error = Normal r ->
  exists text,
    sent_property "error" r = Some (JStr text) /\
    truthy (JStr text) = true /\
    sent_property "details" r = None /\
    status r = 500.
Proof.
  intros Hresp Hr.
  destruct rev; simpl in Hr; unfold Dio.on_error, AnimeTrace.on_error in Hr;
    rewrite Hresp in Hr;
    destruct (error_request error); injection Hr as <-;
    eexists; repeat split.
Qed.

Lemma truthy_is_sent (e data : JsVal) (s : Z) :
  truthy e = true ->
  sent_property "error"
    (mkResponse s (JObj [("error", e); ("details", data)])) = Some e.
Proof. destruct e; simpl; try discriminate; reflexivity. Qed.

(** C8, as amended: every response of the endpoint other than a
    relayed success is a JSON object with an [error] that is never
    empty, and that is a text whenever the upstream's [message] is a
    text, falsy or absent (the newer revision relays a truthy
    [message] that is not a text as it is); it carries [details]
    exactly when the upstream answered the call with a failure
    response: [details] is then that response's body, an object or
    not, and is absent from every other failure, the connection and
    request-configuration failures included. *)
Theorem failure_envelope rev upstream raw calls r :
  run upstream (post_api_recognize rev raw) = (calls, Normal r) ->
  relayed_success upstream calls r \/
  ((exists e,
      sent_property "error" r = Some e /\ truthy e = true /\
      ((rev = animetrace ->
        forall data, failure_response_body upstream calls = Some data ->
                     message_is_text data = true) ->
       exists text, e = JStr text)) /\
   sent_property "details" r = failure_response_body upstream calls).
Proof.
  intros Hrun.
  destruct (post_api_recognize rev raw) as [r'|call k|m] eqn:Hpost;
    [| |discriminate].
  - injection Hrun as <- <-. right.
    destruct (respond_is_plain _ _ _ Hpost) as (text & Herror & Htruthy & Hdetails).
    split; [|exact Hdetails].
    exists (JStr text). eauto.
  - destruct (upstream call) as [response|error] eqn:Hup.
    + left. pose proof (await_relay _ _ _ _ Hpost) as ->.
      rewrite run_await, Hup in Hrun. exists call, response.
      destruct rev; injection Hrun as <- <-; repeat split; assumption.
    + right. rewrite <- Hpost, (run_rejected _ _ _ _ _ _ Hpost Hup) in Hrun.
      injection Hrun as <- Hr.
      unfold failure_response_body. rewrite Hup.
      destruct (error_response error) as [response|] eqn:Hresp; simpl.
      * destruct (on_error_response_inv _ _ _ _ Hresp Hr)
          as (e & -> & Htruthy & Hdetails & Htext).
        split; [|exact Hdetails].
        exists e. split; [exact (truthy_is_sent _ _ _ Htruthy)|].
        split; [exact Htruthy|].
        intros H. apply Htext. intros Hrev. exact (H Hrev _ eq_refl).
      * destruct (on_error_no_response_inv _ _ _ Hresp Hr)
          as (text & Herror & Htruthy & Hdetails & _).
        split; [|exact Hdetails].
        exists (JStr text). eauto.
Qed.

Lemma failure_envelope_witness :
  run (rejects 429 unknown_code_body) (post_api_recognize animetrace url_only) =
  ([url_only_call],
   Normal (mkResponse 429
             (JObj [("error", JStr "quota exceeded");
                    ("details", unknown_code_body)]))) /\
  sent_property "details"
    (mkResponse 429
       (JObj [("error", JStr "quota exceeded"); ("details", unknown_code_body)])) =
  Some unknown_code_body /\
  (relayed_success (rejects 429 unknown_code_body) [url_only_call]
     (mkResponse 429
        (JObj [("error", JStr "quota exceeded"); ("details", unknown_code_body)])) \/
   ((exists e,
       sent_property "error"
         (mkResponse 429
            (JObj [("error", JStr "quota exceeded");
                   ("details", unknown_code_body)])) = Some e /\
       truthy e = true /\
       ((animetrace = animetrace ->
         forall data,
           failure_response_body (rejects 429 unknown_code_body) [url_only_call] =
           Some data -> message_is_text data = true) ->
        exists text, e = JStr text)) /\
    sent_property "details"
      (mkResponse 429
         (JObj [("error", JStr "quota exceeded"); ("details", unknown_code_body)])) =
    failure_response_body (rejects 429 unknown_code_body) [url_only_call])).
Proof.
  split; [reflexivity|]. split; [reflexivity|].
  apply (failure_envelope animetrace (rejects 429 unknown_code_body) url_only
           [url_only_call]).
  reflexivity.
Defined.

(** C8, as stated, fails on two failure responses of the upstream.
    With a body whose [message] is the number 42 the [error] of the
    response is that number, not a string.  With a body that is an
    error page as text, which is no structured data, the response
    carries [details] all the same. *)
Lemma failure_envelope_counterexample :
  (get numeric_message_body "message" = Normal (JNum 42) /\
   exists r,
     run (rejects 500 numeric_message_body)
         (post_api_recognize animetrace url_only) = ([url_only_call], Normal r) /\
     sent_property "error" r = Some (JNum 42) /\
     forall text, sent_property "error" r <> Some (JStr text)) /\
  (plain_body bad_gateway_page = true /\
   exists r,
     run (rejects 502 bad_gateway_page)
         (post_api_recognize animetrace url_only) = ([url_only_call], Normal r) /\
     sent_property "details" r = Some bad_gateway_page).
Proof.
  split.
  - split; [reflexivity|]. eexists. split; [reflexivity|].
    split; [reflexivity|]. intros text. discriminate.
  - split; [reflexivity|]. eexists. split; reflexivity.
Qed.

(** * Further properties of the handlers *)

(** ** Runs that reach the [catch] clause *)

Lemma label_is_truthy (n : Z) (text : string) :
  (n, text) ∈ AnimeTrace.error_codes -> truthy (JNum n) = true.
Proof.
  intros Hin. unfold AnimeTrace.error_codes in Hin.
  repeat (apply elem_of_cons in Hin as [Hin|Hin];
          [injection Hin as -> ->; reflexivity|]).
  now apply elem_of_nil in Hin.
Qed.

(** X1: in the newer revision each of the eleven labels of the
    [switch] selects its own text: when the upstream answers with a
    failure whose body carries such a code, the response has the
    upstream's status, that text as [error] whatever [message] the
    body holds, and the body as [details]. *)
Theorem recognized_code_selects_its_text upstream raw call k error response n text :
  AnimeTrace.post_api_recognize raw = Await call k ->
  upstream call = Rejected error ->
  error_response error = Some response ->
  get (response_data response) "code" = Normal (JNum n) ->
  (n, text) ∈ AnimeTrace.error_codes ->
  run upstream (AnimeTrace.post_api_recognize raw) =
  ([call], Normal (mkResponse (response_status response)
                     (JObj [("error", JStr text);
                            ("details", response_data response)]))).
Proof.
  intros Hpost Hup Hresp Hcode Hin.
  change (AnimeTrace.post_api_recognize raw)
    with (post_api_recognize animetrace raw).
  rewrite (run_rejected animetrace _ _ _ _ _ Hpost Hup). simpl.
  unfold AnimeTrace.on_error. rewrite Hresp.
  destruct (get_defined_object _ _ _ Hcode eq_refl) as [props [Hdata Hown]].
  pose proof (label_is_truthy _ _ Hin) as Htruthy.
  rewrite Hdata at 1.
  rewrite error_message_of_truthy_code by (now rewrite Hown).
  rewrite Hown, (switch_on_label n text) by assumption.
  reflexivity.
Qed.

Lemma recognized_code_selects_its_text_witness :
  get download_failed_body "code" = Normal (JNum 17722) /\
  get download_failed_body "message" = Normal (JStr "download failed") /\
  run (rejects 502 download_failed_body) (AnimeTrace.post_api_recognize url_only) =
  ([url_only_call],
   Normal (mkResponse 502
             (JObj [("error", JStr "图片下载失败，请检查图片URL");
                    ("details", download_failed_body)]))).
Proof.
  split; [reflexivity|]. split; [reflexivity|].
  apply (recognized_code_selects_its_text
           (rejects 502 download_failed_body) url_only url_only_call
           AnimeTrace.relay
           (mkAxiosError (Some (mkAxiosResponse 502 download_failed_body)) true
                         "Request failed")
           (mkAxiosResponse 502 download_failed_body) 17722
           "图片下载失败，请检查图片URL"); try reflexivity.
  compute_done.
Defined.

(** X2: in both revisions, when the call fails without a response
    but with a request made (no answer, a timeout), the endpoint
    answers 500 with the cannot-connect message and no [details]. *)
Theorem no_answer_is_500 rev upstream raw call k error :
  post_api_recognize rev raw = Await call k ->
  upstream call = Rejected error ->
  error_response error = None ->
  error_request error = true ->
  run upstream (post_api_recognize rev raw) =
  ([call], Normal (mkResponse 500
                     (JObj [("error", JStr "无法连接到识别服务，请稍后重试")]))).
Proof.
  intros Hpost Hup Hresp Hreq.
  rewrite (run_rejected _ _ _ _ _ _ Hpost Hup).
  destruct rev; simpl; unfold Dio.on_error, AnimeTrace.on_error;
    rewrite Hresp, Hreq; reflexivity.
Qed.

Lemma no_answer_is_500_witness :
  run (always (Rejected timeout_error)) (post_api_recognize dio file_and_url) =
  ([file_and_url_dio_call],
   Normal (mkResponse 500
             (JObj [("error", JStr "无法连接到识别服务，请稍后重试")]))).
Proof.
  apply (no_answer_is_500 dio (always (Rejected timeout_error)) file_and_url
           file_and_url_dio_call Dio.relay timeout_error); reflexivity.
Defined.

(** X3: in both revisions, when the call fails before any request is
    made (neither a response nor a request), the endpoint answers 500
    with the request-configuration prefix followed by the error's own
    message, and no [details]. *)
Theorem request_error_is_500 rev upstream raw call k error :
  post_api_recognize rev raw = Await call k ->
  upstream call = Rejected error ->
  error_response error = None ->
  error_request error = false ->
  run upstream (post_api_recognize rev raw) =
  ([call], Normal (mkResponse 500
                     (JObj [("error",
                             JStr ("请求配置错误: " +:+ error_message error))]))).
Proof.
  intros Hpost Hup Hresp Hreq.
  rewrite (run_rejected _ _ _ _ _ _ Hpost Hup).
  destruct rev; simpl; unfold Dio.on_error, AnimeTrace.on_error;
    rewrite Hresp, Hreq; reflexivity.
Qed.

Lemma request_error_is_500_witness :
  run (always (Rejected invalid_url_error)) (post_api_recognize animetrace url_only) =
  ([url_only_call],
   Normal (mkResponse 500 (JObj [("error", JStr "请求配置错误: Invalid URL")]))).
Proof.
  apply (request_error_is_500 animetrace (always (Rejected invalid_url_error))
           url_only url_only_call AnimeTrace.relay invalid_url_error);
    reflexivity.
Defined.

(** ** Bodies the [catch] clause cannot read *)

Lemma error_message_of_throws data m :
  AnimeTrace.error_message_of data = Throw m ->
  data = JNull \/ data = JUndefined.
Proof.
  unfold AnimeTrace.error_message_of.
  destruct (get data "message") as [message|m'] eqn:Hmessage;
    [|intros _; exact (get_throws _ _ _ Hmessage)].
  destruct (get_succeeds_together _ _ _ "code" Hmessage) as [code Hcode].
  rewrite Hcode.
  pose proof (switch_text_or_default code AnimeTrace.error_codes
                (mret (js_or message (JStr "识别服务错误")))) as Hswitch.
  cbv zeta in Hswitch.
  destruct (truthy data) eqn:Hdata;
    cbn [mbind completion_bind mret completion_ret];
    [destruct (truthy code)|rewrite Hdata]; try discriminate.
  destruct Hswitch as [Hswitch | [text Hswitch]]; rewrite Hswitch; discriminate.
Qed.

Lemma ToString_throws_truthy v m : ToString v = Throw m -> truthy v = true.
Proof. destruct v as [| |b|n|s|items|props]; try discriminate; [destruct b; discriminate|..]; reflexivity. Qed.

(** X4: the handler ends without sending a response in these
    situations only.  In both revisions: the upstream answered the
    call with a failure response whose body is [null] (or missing),
    on which reading [message] throws inside the [catch] clause.  In
    the older revision also: the body's [message] cannot be turned
    into text for the template (an object with an own property
    [toString], or an array that holds one). *)
Theorem no_response_exactly_on_unreadable_body rev upstream raw :
  (exists calls m, run upstream (post_api_recognize rev raw) = (calls, Throw m)) <->
  (exists call k error response,
     post_api_recognize rev raw = Await call k /\
     upstream call = Rejected error /\
     error_response error = Some response /\
     (response_data response = JNull \/ response_data response = JUndefined \/
      (rev = dio /\
       exists message m,
         get (response_data response) "message" = Normal message /\
         ToString message = Throw m))).
Proof.
  split.
  - intros [calls [m Hrun]].
    destruct (post_api_recognize rev raw) as [r|call k|m'] eqn:Hpost;
      [discriminate| |now destruct (never_raises _ _ _ Hpost)].
    destruct (upstream call) as [response|error] eqn:Hup.
    + pose proof (await_relay _ _ _ _ Hpost) as ->.
      rewrite run_await, Hup in Hrun. destruct rev; discriminate.
    + rewrite <- Hpost, (run_rejected _ _ _ _ _ _ Hpost Hup) in Hrun.
      injection Hrun as _ Hthrow.
      exists call, k, error.
      destruct rev; simpl in Hthrow;
        unfold Dio.on_error, AnimeTrace.on_error in Hthrow;
        destruct (error_response error) as [response|];
        try (destruct (error_request error); discriminate);
        exists response; repeat split; try reflexivity; try assumption.
      * destruct (get (response_data response) "message") as [message|] eqn:Hm.
        -- simpl in Hthrow. do 2 right. split; [reflexivity|].
           destruct (ToString (js_or message (JStr "未知错误"))) as [text|m'] eqn:Ht;
             [discriminate|].
           exists message, m'. split; [reflexivity|].
           unfold js_or in Ht. destruct (truthy message); [exact Ht|discriminate].
        -- destruct (get_throws _ _ _ Hm) as [H | H]; auto.
      * destruct (AnimeTrace.error_message_of (response_data response)) eqn:Hm;
          [discriminate|].
        destruct (error_message_of_throws _ _ Hm) as [H | H]; auto.
  - intros (call & k & error & response & Hpost & Hup & Hresp & Hdata).
    rewrite (run_rejected _ _ _ _ _ _ Hpost Hup).
    destruct Hdata as [Hdata | [Hdata | (-> & message & m & Hmessage & Ht)]].
    + destruct rev; simpl; unfold Dio.on_error, AnimeTrace.on_error;
        rewrite Hresp, Hdata; eexists _, _; reflexivity.
    + destruct rev; simpl; unfold Dio.on_error, AnimeTrace.on_error;
        rewrite Hresp, Hdata; eexists _, _; reflexivity.
    + simpl. unfold Dio.on_error. rewrite Hresp, Hmessage. simpl.
      unfold js_or. rewrite (ToString_throws_truthy _ _ Ht), Ht.
      eexists _, _; reflexivity.
Qed.

(** ** Codes and bodies outside the table *)

Lemma switch_not_number {A} (v : JsVal) (cases : list (Z * A)) (otherwise : A) :
  (forall n, v <> JNum n) -> switch v cases otherwise = otherwise.
Proof.
  intros Hv. induction cases as [|[label body] rest IH]; simpl; [reflexivity|].
  destruct v; simpl; try exact IH. now destruct (Hv n).
Qed.

(** X5: the labels are compared strictly: a code that is not a
    number (the text "17701", a boolean, an object) selects no label,
    and the response carries the body's [message] if that is truthy,
    the generic message otherwise. *)
Theorem non_numeric_code_selects_no_label upstream raw call k error response code :
  AnimeTrace.post_api_recognize raw = Await call k ->
  upstream call = Rejected error ->
  error_response error = Some response ->
  get (response_data response) "code" = Normal code ->
  (forall n, code <> JNum n) ->
  exists message,
    get (response_data response) "message" = Normal message /\
    run upstream (AnimeTrace.post_api_recognize raw) =
    ([call], Normal (mkResponse (response_status response)
                       (JObj [("error",
                               if truthy message then message
                               else JStr "识别服务错误");
                              ("details", response_data response)]))).
Proof.
  intros Hpost Hup Hresp Hcode Hnot.
  destruct (get_succeeds_together _ _ _ "message" Hcode) as [message Hmessage].
  exists message. split; [exact Hmessage|].
  change (AnimeTrace.post_api_recognize raw)
    with (post_api_recognize animetrace raw).
  rewrite (run_rejected animetrace _ _ _ _ _ Hpost Hup). simpl.
  unfold AnimeTrace.on_error. rewrite Hresp.
  destruct (truthy code) eqn:Htruthy.
  - destruct (get_defined_object _ _ _ Hcode (truthy_is_defined _ Htruthy))
      as [props [Hdata Hown]].
    rewrite Hdata in Hmessage. injection Hmessage as Hmessage.
    rewrite Hdata at 1.
    rewrite error_message_of_truthy_code by (now rewrite Hown).
    rewrite Hown, switch_not_number, Hmessage by assumption.
    reflexivity.
  - rewrite (error_message_of_falsy_code _ code message) by assumption.
    reflexivity.
Qed.

Lemma non_numeric_code_selects_no_label_witness :
  get string_code_body "code" = Normal (JStr "17701") /\
  run (rejects 413 string_code_body) (AnimeTrace.post_api_recognize url_only) =
  ([url_only_call],
   Normal (mkResponse 413
             (JObj [("error", JStr "too big"); ("details", string_code_body)]))).
Proof.
  split; [reflexivity|].
  destruct (non_numeric_code_selects_no_label
              (rejects 413 string_code_body) url_only url_only_call
              AnimeTrace.relay
              (mkAxiosError (Some (mkAxiosResponse 413 string_code_body)) true
                            "Request failed")
              (mkAxiosResponse 413 string_code_body) (JStr "17701")
              eq_refl eq_refl eq_refl eq_refl
              (fun n H => eq_ind (JStr "17701")
                            (fun v => match v with JStr _ => True | _ => False end)
                            I (JNum n) H))
    as [message [Hmessage Hrun]].
  injection Hmessage as <-. exact Hrun.
Defined.

(** X6: when the failure body is not an object (an error page as
    text, a number, a boolean, an array), the response carries the
    revision's generic message and the body, as it is, as [details]. *)
Theorem plain_body_gets_generic_message rev upstream raw call k error response :
  post_api_recognize rev raw = Await call k ->
  upstream call = Rejected error ->
  error_response error = Some response ->
  plain_body (response_data response) = true ->
  run upstream (post_api_recognize rev raw) =
  ([call], Normal (mkResponse (response_status response)
                     (JObj [("error",
                             JStr match rev with
                                  | dio => "识别服务错误: 未知错误"
                                  | animetrace => "识别服务错误"
                                  end);
                            ("details", response_data response)]))).
Proof.
  intros Hpost Hup Hresp Hplain.
  rewrite (run_rejected _ _ _ _ _ _ Hpost Hup).
  assert (forall name, get (response_data response) name = Normal JUndefined)
    as Hget.
  { intros name. destruct (response_data response); try discriminate; reflexivity. }
  destruct rev; simpl; unfold Dio.on_error, AnimeTrace.on_error; rewrite Hresp.
  - rewrite Hget. reflexivity.
  - rewrite (error_message_of_falsy_code _ JUndefined JUndefined)
      by (apply Hget || reflexivity).
    reflexivity.
Qed.

Lemma plain_body_gets_generic_message_witness :
  plain_body bad_gateway_page = true /\
  run (rejects 502 bad_gateway_page) (post_api_recognize animetrace url_only) =
  ([url_only_call],
   Normal (mkResponse 502
             (JObj [("error", JStr "识别服务错误"); ("details", bad_gateway_page)]))).
Proof.
  split; [reflexivity|].
  apply (plain_body_gets_generic_message animetrace
           (rejects 502 bad_gateway_page) url_only url_only_call AnimeTrace.relay
           (mkAxiosError (Some (mkAxiosResponse 502 bad_gateway_page)) true
                         "Request failed")
           (mkAxiosResponse 502 bad_gateway_page)); reflexivity.
Defined.

(** X7: the older revision has no table: whatever code the failure
    body carries, when the body's [message] is a text, falsy or
    absent, the [error] of the response is the fixed prefix followed
    by that text if it is not empty, and by the unknown-error text
    otherwise; the status is the upstream's and [details] is the
    body. *)
Theorem dio_error_message upstream raw call k error response message s :
  Dio.post_api_recognize raw = Await call k ->
  upstream call = Rejected error ->
  error_response error = Some response ->
  get (response_data response) "message" = Normal message ->
  (truthy message = true -> message = JStr s) ->
  run upstream (Dio.post_api_recognize raw) =
  ([call], Normal (mkResponse (response_status response)
                     (JObj [("error",
                             JStr ("识别服务错误: " +:+
                                   (if truthy message then s else "未知错误")));
                            ("details", response_data response)]))).
Proof.
  intros Hpost Hup Hresp Hmessage Htext.
  change (Dio.post_api_recognize raw) with (post_api_recognize dio raw).
  rewrite (run_rejected dio _ _ _ _ _ Hpost Hup). simpl.
  unfold Dio.on_error. rewrite Hresp, Hmessage. simpl.
  unfold js_or. destruct (truthy message); [|reflexivity].
  rewrite (Htext eq_refl). reflexivity.
Qed.

Lemma dio_error_message_witness :
  get download_failed_body "code" = Normal (JNum 17722) /\
  get download_failed_body "message" = Normal (JStr "download failed") /\
  run (rejects 502 download_failed_body) (Dio.post_api_recognize file_and_url) =
  ([file_and_url_dio_call],
   Normal (mkResponse 502
             (JObj [("error", JStr "识别服务错误: download failed");
                    ("details", download_failed_body)]))).
Proof.
  split; [reflexivity|]. split; [reflexivity|].
  apply (dio_error_message (rejects 502 download_failed_body) file_and_url
           file_and_url_dio_call Dio.relay
           (mkAxiosError (Some (mkAxiosResponse 502 download_failed_body)) true
                         "Request failed")
           (mkAxiosResponse 502 download_failed_body)
           (JStr "download failed") "download failed"); reflexivity.
Defined.

(** ** The outbound form and call *)

(** X8: every outbound form names exactly one image source: one
    [file] part or one [url] part, never both and never neither; the
    older revision never sends a [url] part. *)
Theorem one_image_source rev raw call k :
  post_api_recognize rev raw = Await call k ->
  length (parts_named "file" (call_form call) ++
          parts_named "url" (call_form call)) = 1%nat /\
  (rev = dio -> parts_named "url" (call_form call) = []).
Proof.
  intros Hpost. destruct rev; simpl in Hpost.
  - apply dio_await_inv in Hpost as (req & f & form & _ & _ & Hform & -> & _).
    apply dio_build_form_normal in Hform as ->. simpl call_form.
    destruct (defined (field req "use_correction")); split; reflexivity.
  - apply animetrace_await_inv in Hpost as (req & form & _ & Hguard & Hform & -> & _).
    apply animetrace_build_form_normal in Hform as ->. simpl call_form.
    unfold has_file in Hguard.
    destruct (file req) as [f|];
      destruct (truthy (field req "url")); simpl in Hguard; try discriminate;
      destruct (defined (field req "is_multi")), (defined (field req "model")),
        (defined (field req "ai_detect")); split; (reflexivity || discriminate).
Qed.

Lemma one_image_source_witness :
  post_api_recognize dio file_and_url = Await file_and_url_dio_call Dio.relay /\
  length (parts_named "file" (call_form file_and_url_dio_call) ++
          parts_named "url" (call_form file_and_url_dio_call)) = 1%nat /\
  (dio = dio -> parts_named "url" (call_form file_and_url_dio_call) = []).
Proof.
  split; [reflexivity|].
  apply (one_image_source dio file_and_url file_and_url_dio_call Dio.relay);
    reflexivity.
Defined.

(** X9: in the newer revision a request without a file whose [url]
    is a text that is not empty, and whose options are each absent
    or text, reaches the upstream, and its form carries that text,
    as it is, as the one [url] part and has no [file] part. *)
Theorem url_is_forwarded raw req s :
  upload_single raw = inr req ->
  file req = None ->
  field req "url" = JStr s ->
  s <> "" ->
  (forall name, name ∈ forwarded_options animetrace ->
                text_or_undefined (field req name) = true) ->
  exists call k,
    AnimeTrace.post_api_recognize raw = Await call k /\
    parts_named "url" (call_form call) = [ValuePart "url" (JStr s)] /\
    parts_named "file" (call_form call) = [].
Proof.
  intros Hup Hfile Hurl Hs Htext.
  assert (truthy (JStr s) = true) as Htruthy.
  { simpl. destruct (String.eqb_spec s ""); [contradiction|reflexivity]. }
  unfold AnimeTrace.post_api_recognize. rewrite Hup.
  unfold AnimeTrace.recognize, AnimeTrace.build_form, has_file.
  rewrite Hfile, Hurl, Htruthy. simpl.
  rewrite (append_text _ "is_multi") by (apply Htext; compute_done). simpl.
  rewrite (append_text _ "model") by (apply Htext; compute_done). simpl.
  rewrite (append_text _ "ai_detect") by (apply Htext; compute_done). simpl.
  eexists _, _. split; [reflexivity|]. simpl call_form.
  destruct (defined (field req "is_multi")), (defined (field req "model")),
    (defined (field req "ai_detect")); split; reflexivity.
Qed.

Lemma url_is_forwarded_witness :
  upload_single url_only = inr (mkRequest None (in_body url_only)) /\
  exists call k,
    AnimeTrace.post_api_recognize url_only = Await call k /\
    parts_named "url" (call_form call) =
    [ValuePart "url" (JStr "https://example.org/face.png")] /\
    parts_named "file" (call_form call) = [].
Proof.
  split; [reflexivity|].
  apply (url_is_forwarded url_only (mkRequest None (in_body url_only))
           "https://example.org/face.png");
    [reflexivity|reflexivity|reflexivity|discriminate|].
  intros name Hin. name_in_list Hin; reflexivity.
Defined.





(** X13: a request makes at most one outbound call, and that call
    goes to the revision's fixed address with a timeout of 30000
    milliseconds. *)
Theorem call_has_the_fixed_target rev upstream raw call :
  call ∈ (run upstream (post_api_recognize rev raw)).1 ->
  (run upstream (post_api_recognize rev raw)).1 = [call] /\
  call_url call = upstream_url rev /\
  call_timeout call = 30000.
Proof.
  destruct (post_api_recognize rev raw) as [r|call' k|m] eqn:Hpost; simpl;
    intros Hin; try (now apply elem_of_nil in Hin).
  apply list_elem_of_singleton in Hin as ->.
  split; [reflexivity|].
  destruct rev; simpl in Hpost.
  - apply dio_await_inv in Hpost as (req & f & form & _ & _ & _ & -> & _).
    split; reflexivity.
  - apply animetrace_await_inv in Hpost as (req & form & _ & _ & _ & -> & _).
    split; reflexivity.
Qed.

Lemma call_has_the_fixed_target_witness :
  (run unreachable (post_api_recognize animetrace url_only)).1 = [url_only_call] /\
  call_url url_only_call = "https://api.animetrace.com/v1/search" /\
  call_timeout url_only_call = 30000.
Proof.
  apply (call_has_the_fixed_target animetrace unreachable url_only url_only_call).
  apply list_elem_of_singleton. reflexivity.
Defined.

(** ** Statuses *)

(** X14: the error middleware answers 400 with the size-limit
    message for multer's [LIMIT_FILE_SIZE] alone; every other error,
    whatever its code or message, gets the same 500 with the
    internal-error text, which shows nothing of the error. *)
Theorem errorHandler_answers e :
  (e = MulterError "LIMIT_FILE_SIZE" /\
   errorHandler e =
   mkResponse 400 (JObj [("error", JStr "文件大小超过限制（最大5MB）")])) \/
  (e <> MulterError "LIMIT_FILE_SIZE" /\
   errorHandler e = mkResponse 500 (JObj [("error", JStr "服务器内部错误")])).
Proof.
  destruct e as [code|message]; simpl; [|right; split; [discriminate|reflexivity]].
  destruct (String.eqb_spec code "LIMIT_FILE_SIZE") as [->|Hne].
  - left. split; reflexivity.
  - right. split; [congruence|reflexivity].
Qed.

(** X12: the status of a response is 200, 400 or 500, or else the
    status of the failure response the upstream answered the call
    with. *)
Theorem response_status_is_known rev upstream raw calls r :
  run upstream (post_api_recognize rev raw) = (calls, Normal r) ->
  status r = 200 \/ status r = 400 \/ status r = 500 \/
  exists call error response,
    calls = [call] /\ upstream call = Rejected error /\
    error_response error = Some response /\
    status r = response_status response.
Proof.
  intros Hrun.
  destruct (post_api_recognize rev raw) as [r'|call k|m] eqn:Hpost;
    [| |discriminate].
  - injection Hrun as <- <-.
    destruct rev; simpl in Hpost;
      unfold Dio.post_api_recognize, AnimeTrace.post_api_recognize in Hpost;
      destruct (upload_single raw) as [e|req].
    1,3: injection Hpost as <-;
         destruct e as [code|message]; simpl;
         [destruct (String.eqb code "LIMIT_FILE_SIZE")|]; simpl; auto.
    + unfold Dio.recognize in Hpost. destruct (file req) as [f|].
      * destruct (Dio.build_form f req); [discriminate|].
        rewrite dio_caught_thrown in Hpost. injection Hpost as <-. simpl. auto.
      * injection Hpost as <-. simpl. auto.
    + unfold AnimeTrace.recognize in Hpost.
      destruct (negb (has_file req) && negb (truthy (field req "url"))).
      * injection Hpost as <-. simpl. auto.
      * destruct (AnimeTrace.build_form req); [discriminate|].
        rewrite animetrace_caught_thrown in Hpost. injection Hpost as <-.
        simpl. auto.
  - destruct (upstream call) as [response|error] eqn:Hup.
    + pose proof (await_relay _ _ _ _ Hpost) as ->.
      rewrite run_await, Hup in Hrun. left.
      destruct rev; injection Hrun as _ <-; reflexivity.
    + rewrite <- Hpost, (run_rejected _ _ _ _ _ _ Hpost Hup) in Hrun.
      injection Hrun as <- Hr.
      destruct (error_response error) as [response|] eqn:Hresp.
      * destruct (on_error_response_inv _ _ _ _ Hresp Hr) as (e & -> & _).
        do 3 right. exists call, error, response. auto.
      * destruct (on_error_no_response_inv _ _ _ Hresp Hr) as (_ & _ & _ & _ & ->).
        auto.
Qed.

Lemma response_status_is_known_witness :
  run (rejects 429 unknown_code_body) (post_api_recognize animetrace url_only) =
  ([url_only_call],
   Normal (mkResponse 429
             (JObj [("error", JStr "quota exceeded");
                    ("details", unknown_code_body)]))) /\
  (429 = 200 \/ 429 = 400 \/ 429 = 500 \/
   exists call error response,
     [url_only_call] = [call] /\
     rejects 429 unknown_code_body call = Rejected error /\
     error_response error = Some response /\
     429 = response_status response).
Proof.
  split; [reflexivity|].
  apply (response_status_is_known animetrace (rejects 429 unknown_code_body)
           url_only [url_only_call]
           (mkResponse 429
              (JObj [("error", JStr "quota exceeded");
                     ("details", unknown_code_body)]))).
  reflexivity.
Defined.

(** ** The [error] of a failure *)

(** X15: the [error] of a failure is never empty: every response
    other than a relayed success carries an [error] that is truthy,
    whatever the upstream sent. *)
Theorem failure_error_is_never_empty rev upstream raw calls r :
  run upstream (post_api_recognize rev raw) = (calls, Normal r) ->
  relayed_success upstream calls r \/
  exists e, sent_property "error" r = Some e /\ truthy e = true.
Proof.
  intros Hrun.
  destruct (post_api_recognize rev raw) as [r'|call k|m] eqn:Hpost;
    [| |discriminate].
  - right. injection Hrun as <- <-.
    destruct (respond_is_plain _ _ _ Hpost) as (text & Herror & Htruthy & _).
    eauto.
  - destruct (upstream call) as [response|error] eqn:Hup.
    + left. pose proof (await_relay _ _ _ _ Hpost) as ->.
      rewrite run_await, Hup in Hrun. exists call, response.
      destruct rev; injection Hrun as <- <-; repeat split; assumption.
    + right. rewrite <- Hpost, (run_rejected _ _ _ _ _ _ Hpost Hup) in Hrun.
      injection Hrun as _ Hr.
      destruct (error_response error) as [response|] eqn:Hresp.
      * destruct (on_error_response_inv _ _ _ _ Hresp Hr)
          as (e & -> & Htruthy & _).
        exists e. split; [exact (truthy_is_sent _ _ _ Htruthy)|exact Htruthy].
      * destruct (on_error_no_response_inv _ _ _ Hresp Hr)
          as (text & Herror & Htruthy & _).
        eauto.
Qed.

Lemma failure_error_is_never_empty_witness :
  run (rejects 429 unknown_code_empty_message_body)
      (post_api_recognize animetrace url_only) =
  ([url_only_call],
   Normal (mkResponse 429
             (JObj [("error", JStr "识别服务错误");
                    ("details", unknown_code_empty_message_body)]))) /\
  (relayed_success (rejects 429 unknown_code_empty_message_body) [url_only_call]
     (mkResponse 429
        (JObj [("error", JStr "识别服务错误");
               ("details", unknown_code_empty_message_body)])) \/
   exists e,
     sent_property "error"
       (mkResponse 429
          (JObj [("error", JStr "识别服务错误");
                 ("details", unknown_code_empty_message_body)])) = Some e /\
     truthy e = true).
Proof.
  split; [reflexivity|].
  apply (failure_error_is_never_empty animetrace
           (rejects 429 unknown_code_empty_message_body) url_only
           [url_only_call]).
  reflexivity.
Defined.
